(** * cdk-s3-website: the [CdkS3WebsiteStack] constructor

    A shallow embedding of [lib/cdk-s3-website-stack.ts].  The constructor
    is a sequence of calls into aws-cdk-lib ([super], three [new], one
    property read).  It is embedded as a program over those calls, so that
    it can be run against any implementation of the library, and against
    the model of the library given in section [AwsCdkLib]. *)

From stdpp Require Import gmap strings list.

Open Scope string_scope.

(** ** Values handed to the library *)

(** [cdk.RemovalPolicy]. *)
Inductive RemovalPolicy :=
| DESTROY
| RETAIN
| SNAPSHOT
| RETAIN_ON_UPDATE_OR_DELETE.

(** [s3.BlockPublicAccess]: the four flags of an S3 public-access block.
    A flag the library leaves unset is [false]. *)
Record BlockPublicAccess := {
  blockPublicAcls : bool;
  blockPublicPolicy : bool;
  ignorePublicAcls : bool;
  restrictPublicBuckets : bool
}.

(** Modelled from the spec: [s3.BlockPublicAccess.BLOCK_ACLS] is a constant
    of aws-cdk-lib, which is not part of the repository.  The source says of
    it: "Allows public access but blocks ACLs"; the two ACL flags are set,
    the two policy flags are not. *)
Definition BLOCK_ACLS : BlockPublicAccess :=
  {| blockPublicAcls := true; blockPublicPolicy := false;
     ignorePublicAcls := true; restrictPublicBuckets := false |}.

(** Modelled from the spec: [s3.BlockPublicAccess.BLOCK_ALL], the sibling
    constant of aws-cdk-lib that sets all four flags. *)
Definition BLOCK_ALL : BlockPublicAccess :=
  {| blockPublicAcls := true; blockPublicPolicy := true;
     ignorePublicAcls := true; restrictPublicBuckets := true |}.

(** [s3Deploy.Source.asset(path)]: a deployment source that names a local
    directory. *)
Inductive Source :=
| Source_asset (path : string).

(** The JavaScript values the constructor builds and passes around.
    A construct is an object; [VConstruct r] is the reference to it. *)
Inductive Value :=
| VUndefined
| VBool (b : bool)
| VString (s : string)
| VRemovalPolicy (p : RemovalPolicy)
| VBlockPublicAccess (b : BlockPublicAccess)
| VConstruct (r : nat)
| VSources (l : list Source).

(** An object literal [{ key: value, ... }]. *)
Abbreviation Props := (gmap string Value).

(** The construct classes the source instantiates. *)
Inductive Class :=
| Stack
| Bucket
| BucketDeployment
| CfnOutput.

Global Instance Class_eq_dec : EqDecision Class.
Proof. solve_decision. Defined.

(** ** Programs over the library *)

(** The calls the constructor makes into aws-cdk-lib:
    [new C(scope, id, props)] (and [super(scope, id, props)], which is
    [New Stack]) and the property read [obj.attr]. *)
Inductive Op :=
| New (c : Class) (scope : Value) (id : string) (props : option Props)
| Get (obj : Value) (attr : string).

(** A program: it returns, throws an error of its own, calls the library and
    goes on with the answer, or runs a body under [try]/[catch]. *)
Inductive Prog :=
| Ret (v : Value)
| Throw (msg : string)
| Call (op : Op) (k : Value -> Prog)
| TryCatch (body : Prog) (handler : string -> Prog).

Notation "x <- op ;; k" := (Call op (fun x => k))
  (at level 100, op at next level, right associativity, only parsing).

(** [lib/cdk-s3-website-stack.ts], lines 7-28. *)
Definition CdkS3WebsiteStack
  (scope : nat) (id : string) (props : option Props) : Prog :=
  this <- New Stack (VConstruct scope) id props ;;
  websiteBucket <- New Bucket this "SriSriWebsiteBucket" (Some {[
    "websiteIndexDocument" := VString "index.html";
    "publicReadAccess" := VBool true;
    "removalPolicy" := VRemovalPolicy DESTROY;
    "blockPublicAccess" := VBlockPublicAccess BLOCK_ACLS ]}) ;;
  _ <- New BucketDeployment this "DeployWebsite" (Some {[
    "sources" := VSources [Source_asset "./website"];
    "destinationBucket" := websiteBucket ]}) ;;
  url <- Get websiteBucket "bucketWebsiteUrl" ;;
  _ <- New CfnOutput this "WebsiteURL" (Some {[
    "value" := url ]}) ;;
  Ret this.

(** The first listing of the walkthrough (README, "Step 3"), which the
    walkthrough reports as rejected by the library. *)
Definition CdkS3WebsiteStack_step3
  (scope : nat) (id : string) (props : option Props) : Prog :=
  this <- New Stack (VConstruct scope) id props ;;
  websiteBucket <- New Bucket this "WebsiteBucket" (Some {[
    "websiteIndexDocument" := VString "index.html";
    "publicReadAccess" := VBool true;
    "removalPolicy" := VRemovalPolicy DESTROY;
    "autoDeleteObjects" := VBool true ]}) ;;
  _ <- New BucketDeployment this "DeployWebsite" (Some {[
    "sources" := VSources [Source_asset "./website"];
    "destinationBucket" := websiteBucket ]}) ;;
  url <- Get websiteBucket "bucketWebsiteUrl" ;;
  _ <- New CfnOutput this "WebsiteURL" (Some {[
    "value" := url ]}) ;;
  Ret this.

(** The object literals of the source, named. *)
Definition websiteBucket_props : Props :=
  {[ "websiteIndexDocument" := VString "index.html";
     "publicReadAccess" := VBool true;
     "removalPolicy" := VRemovalPolicy DESTROY;
     "blockPublicAccess" := VBlockPublicAccess BLOCK_ACLS ]}.

Definition DeployWebsite_props (websiteBucket : Value) : Props :=
  {[ "sources" := VSources [Source_asset "./website"];
     "destinationBucket" := websiteBucket ]}.

Definition WebsiteURL_props (url : Value) : Props :=
  {[ "value" := url ]}.

(** The calls of the constructor, given what the library answered for the
    stack, for the bucket and for the website URL. *)
Definition CdkS3WebsiteStack_ops
  (scope : nat) (id : string) (props : option Props)
  (this websiteBucket url : Value) : list Op :=
  [ New Stack (VConstruct scope) id props;
    New Bucket this "SriSriWebsiteBucket" (Some websiteBucket_props);
    New BucketDeployment this "DeployWebsite"
      (Some (DeployWebsite_props websiteBucket));
    Get websiteBucket "bucketWebsiteUrl";
    New CfnOutput this "WebsiteURL" (Some (WebsiteURL_props url)) ].

(** ** Running a program *)

(** Who raised an error: the library, or the program's own [throw]. *)
Inductive Origin :=
| External
| Own.

Section Run.
Context {St : Type}.

(** What the library answers to a call, with its state afterwards. *)
Inductive Reply :=
| Answer (v : Value) (s : St)
| Reject (msg : string) (s : St).

(** How a run of a program ends. *)
Inductive Outcome :=
| Done (v : Value) (s : St)
| Raised (o : Origin) (msg : string) (s : St).

(** The library as a function. *)
Fixpoint run (lib : Op -> St -> Reply) (p : Prog) (s : St) : Outcome :=
  match p with
  | Ret v => Done v s
  | Throw msg => Raised Own msg s
  | Call op k =>
      match lib op s with
      | Answer v s' => run lib (k v) s'
      | Reject msg s' => Raised External msg s'
      end
  | TryCatch body handler =>
      match run lib body s with
      | Done v s' => Done v s'
      | Raised _ msg s' => run lib (handler msg) s'
      end
  end.

(** The calls a run makes, in order. *)
Fixpoint calls (lib : Op -> St -> Reply) (p : Prog) (s : St) : list Op :=
  match p with
  | Ret _ | Throw _ => []
  | Call op k =>
      op :: match lib op s with
            | Answer v s' => calls lib (k v) s'
            | Reject _ _ => []
            end
  | TryCatch body handler =>
      (calls lib body s ++
       match run lib body s with
       | Done _ _ => []
       | Raised _ msg s' => calls lib (handler msg) s'
       end)%list
  end.

End Run.

Arguments Reply : clear implicits.
Arguments Outcome : clear implicits.

(** The kind of a call: what is instantiated, or which property is read. *)
Inductive Kind :=
| KNew (c : Class)
| KGet (attr : string).

Definition kind (op : Op) : Kind :=
  match op with
  | New c _ _ _ => KNew c
  | Get _ attr => KGet attr
  end.

(** [StraightLine ks p]: whatever the library answers, [p] makes exactly the
    calls of kinds [ks], in that order, and returns; it has no [throw] and
    no [try]. *)
Inductive StraightLine : list Kind -> Prog -> Prop :=
| sl_Ret v : StraightLine [] (Ret v)
| sl_Call op k ks :
    (forall v, StraightLine ks (k v)) ->
    StraightLine (kind op :: ks) (Call op k).

(** ** The library *)

(** A statement of a bucket's resource policy: who may do what on the
    objects of which bucket. *)
Record Statement := {
  st_principal : string;
  st_actions : list string;
  st_bucket : nat
}.

(** A construct in the tree of an app: its class, its id in its scope, the
    props it was created with, its children by id in creation order
    ([node.children]) and, for a bucket, the statements of its policy. *)
Record Construct := {
  c_class : Class;
  c_id : string;
  c_props : option Props;
  c_children : list (string * nat);
  c_policy : list Statement
}.

(** The objects of a run; a construct's reference is its position. *)
Abbreviation Tree := (list Construct).

Definition has_child (id : string) (c : Construct) : bool :=
  existsb (fun ch => String.eqb (fst ch) id) (c_children c).

Definition addChild (parent : Construct) (id : string) (r : nat) : Construct :=
  {| c_class := c_class parent;
     c_id := c_id parent;
     c_props := c_props parent;
     c_children := (c_children parent ++ [(id, r)])%list;
     c_policy := c_policy parent |}.

(** JavaScript truthiness of a field of an object literal; a field that is
    absent reads as [undefined]. *)
Definition truthy (v : option Value) : bool :=
  match v with
  | Some (VBool b) => b
  | Some (VString s) => negb (String.eqb s "")
  | Some VUndefined | None => false
  | Some _ => true
  end.

Definition msg_publicReadAccess : string :=
  "Cannot use 'publicReadAccess' property on a bucket without allowing bucket-level public access through 'blockPublicAccess' property.".

Definition msg_blockPublicPolicy : string :=
  "Cannot grant public access when 'blockPublicPolicy' is enabled".

(** Modelled from the spec: the validation done by the constructor of
    [s3.Bucket], which belongs to aws-cdk-lib and is not part of the
    repository.  The spec: "public access requested while the corresponding
    access-block policy disallows it" is rejected; the walkthrough quotes
    the rejection of a bucket that asks for [publicReadAccess] and gives no
    [blockPublicAccess].  Public read is granted by a statement of the
    bucket policy, which [blockPublicPolicy] disallows. *)
Definition Bucket_validate (props : Props) : option string :=
  if truthy (props !! "publicReadAccess") then
    match props !! "blockPublicAccess" with
    | Some (VBlockPublicAccess b) =>
        if blockPublicPolicy b then Some msg_blockPublicPolicy else None
    | _ => Some msg_publicReadAccess
    end
  else None.

(** Modelled from the spec: [grantPublicAccess] of aws-cdk-lib, the
    statement that lets anyone read the objects of bucket [r]. *)
Definition grantPublicAccess (r : nat) : Statement :=
  {| st_principal := "*"; st_actions := ["s3:GetObject"]; st_bucket := r |}.

Definition validate (c : Class) (props : option Props) : option string :=
  match c with
  | Bucket => Bucket_validate (default ∅ props)
  | _ => None
  end.

Definition policy_of (c : Class) (r : nat) (props : option Props) : list Statement :=
  match c with
  | Bucket =>
      if truthy (default ∅ props !! "publicReadAccess")
      then [grantPublicAccess r] else []
  | _ => []
  end.

Definition msg_scope : string := "scope is not a construct".

Definition msg_duplicate (id : string) : string :=
  "There is already a Construct with name '" ++ id ++ "'".

Section AwsCdkLib.

(** The website URL the library derives for the bucket at a reference; the
    stack does not compute it, so it is left open. *)
Variable bucketWebsiteUrl : nat -> string.

(** Modelled from the spec: [new C(scope, id, props)] of aws-cdk-lib.  The
    new construct is registered under [id] in its scope, which refuses an
    id it already has; then the props are validated. *)
Definition construct_new
  (c : Class) (scope : Value) (id : string) (props : option Props)
  (t : Tree) : Reply Tree :=
  match scope with
  | VConstruct p =>
      match t !! p with
      | Some parent =>
          if has_child id parent then Reject (msg_duplicate id) t
          else
            let r := length t in
            let t' := (<[p := addChild parent id r]> t ++
              [{| c_class := c; c_id := id; c_props := props;
                  c_children := []; c_policy := policy_of c r props |}])%list in
            match validate c props with
            | Some msg => Reject msg t'
            | None => Answer (VConstruct r) t'
            end
      | None => Reject msg_scope t
      end
  | _ => Reject msg_scope t
  end.

(** Modelled from the spec: the property read [obj.attr]; only
    [bucketWebsiteUrl] of a bucket is read by the source. *)
Definition construct_get (obj : Value) (attr : string) (t : Tree) : Reply Tree :=
  match obj with
  | VConstruct r =>
      match t !! r with
      | Some c =>
          if decide (c_class c = Bucket) then
            if String.eqb attr "bucketWebsiteUrl"
            then Answer (VString (bucketWebsiteUrl r)) t
            else Answer VUndefined t
          else Answer VUndefined t
      | None => Answer VUndefined t
      end
  | VUndefined => Reject "Cannot read properties of undefined" t
  | _ => Answer VUndefined t
  end.

Definition awscdk (op : Op) (t : Tree) : Reply Tree :=
  match op with
  | New c scope id props => construct_new c scope id props t
  | Get obj attr => construct_get obj attr t
  end.

(** The four constructs a successful run of the constructor adds to a tree
    that had [n] objects. *)
Definition stack_node (id : string) (props : option Props) (n : nat) : Construct :=
  {| c_class := Stack; c_id := id; c_props := props;
     c_children := [("SriSriWebsiteBucket", n + 1); ("DeployWebsite", n + 2);
                    ("WebsiteURL", n + 3)];
     c_policy := [] |}.

Definition bucket_node (n : nat) : Construct :=
  {| c_class := Bucket; c_id := "SriSriWebsiteBucket";
     c_props := Some websiteBucket_props;
     c_children := []; c_policy := [grantPublicAccess (n + 1)] |}.

Definition deployment_node (n : nat) : Construct :=
  {| c_class := BucketDeployment; c_id := "DeployWebsite";
     c_props := Some (DeployWebsite_props (VConstruct (n + 1)));
     c_children := []; c_policy := [] |}.

Definition output_node (n : nat) : Construct :=
  {| c_class := CfnOutput; c_id := "WebsiteURL";
     c_props := Some (WebsiteURL_props (VString (bucketWebsiteUrl (n + 1))));
     c_children := []; c_policy := [] |}.

Definition declared (id : string) (props : option Props) (n : nat) : Tree :=
  [stack_node id props n; bucket_node n; deployment_node n; output_node n].

End AwsCdkLib.

(** A root construct with no children, the scope of the examples. *)
Definition root : Construct :=
  {| c_class := Stack; c_id := ""; c_props := None;
     c_children := []; c_policy := [] |}.

(** A website URL attribute for the examples. *)
Definition url_token (r : nat) : string := "${Token[WebsiteURL]}".

(** A library with no state that answers every call, for the examples. *)
Definition accepting (op : Op) (s : unit) : Reply unit := Answer VUndefined s.

(** ** Reading a tree *)

Definition children_of (t : Tree) (r : nat) : list (string * nat) :=
  default [] (c_children <$> t !! r).

Definition class_at (t : Tree) (r : nat) : option Class :=
  c_class <$> t !! r.

Definition props_at (t : Tree) (r : nat) : Props :=
  default ∅ (t !! r ≫= c_props).

Definition policy_at (t : Tree) (r : nat) : list Statement :=
  default [] (c_policy <$> t !! r).

(** The construct [stack] has a child of id [cid], which is the object [r],
    of class [c]. *)
Definition declares (t : Tree) (stack : nat) (c : Class) (cid : string) (r : nat) : Prop :=
  (cid, r) ∈ children_of t stack ∧ class_at t r = Some c.

(** ** The bucket configuration, as the spec puts it *)

(** Public read is requested. *)
Definition requests_public_read (props : Props) : bool :=
  truthy (props !! "publicReadAccess").

(** The access-block policy blocks the mode in which public read is granted,
    a statement of the bucket policy; a bucket that gives no policy allows
    nothing. *)
Definition blocks_grant (props : Props) : bool :=
  match props !! "blockPublicAccess" with
  | Some (VBlockPublicAccess b) => blockPublicPolicy b
  | _ => true
  end.

(** The two settings are consistent. *)
Definition consistent (props : Props) : bool :=
  negb (requests_public_read props && blocks_grant props).

(** The kinds of the calls of the constructor, in order. *)
Definition CdkS3WebsiteStack_calls : list Kind :=
  [KNew Stack; KNew Bucket; KNew BucketDeployment;
   KGet "bucketWebsiteUrl"; KNew CfnOutput].


(** ** The first listing of the walkthrough, and well-formed trees *)

(** The props of the bucket in the first listing of the walkthrough. *)
Definition WebsiteBucket_step3_props : Props :=
  {[ "websiteIndexDocument" := VString "index.html";
     "publicReadAccess" := VBool true;
     "removalPolicy" := VRemovalPolicy DESTROY;
     "autoDeleteObjects" := VBool true ]}.

(** The calls of the first listing, given what the library answered for the
    stack, for the bucket and for the website URL. *)
Definition CdkS3WebsiteStack_step3_ops
  (scope : nat) (id : string) (props : option Props)
  (this websiteBucket url : Value) : list Op :=
  [ New Stack (VConstruct scope) id props;
    New Bucket this "WebsiteBucket" (Some WebsiteBucket_step3_props);
    New BucketDeployment this "DeployWebsite"
      (Some (DeployWebsite_props websiteBucket));
    Get websiteBucket "bucketWebsiteUrl";
    New CfnOutput this "WebsiteURL" (Some (WebsiteURL_props url)) ].


(** ** Running the constructor against the library *)

Example run_root :
  run (awscdk url_token) (CdkS3WebsiteStack 0 "CdkS3WebsiteStack" None) [root]
  = Done (VConstruct 1)
      ([addChild root "CdkS3WebsiteStack" 1] ++
       declared url_token "CdkS3WebsiteStack" None 1)%list.
Proof. vm_compute. reflexivity. Qed.

(** A construct created in a scope that is one of the last objects of the
    tree: the scope gets the child, the new object goes to the end. *)
Lemma construct_new_child c id props (base news : Tree) i p parent :
  p = length base + i ->
  news !! i = Some parent ->
  has_child id parent = false ->
  validate c props = None ->
  construct_new c (VConstruct p) id props (base ++ news)%list =
  Answer (VConstruct (length base + length news))
    (base ++ (<[i := addChild parent id (length base + length news)]> news ++
       [{| c_class := c; c_id := id; c_props := props; c_children := [];
           c_policy := policy_of c (length base + length news) props |}]))%list.
Proof.
  intros -> Hi Hfresh Hvalid. unfold construct_new.
  rewrite lookup_app_r by lia.
  replace (length base + i - length base) with i by lia.
  rewrite Hi, Hfresh, Hvalid, length_app.
  rewrite insert_app_r, app_assoc. reflexivity.
Qed.

(** Reading the website URL of a bucket that is one of the last objects. *)
Lemma construct_get_bucket url (base news : Tree) i p c :
  p = length base + i ->
  news !! i = Some c ->
  c_class c = Bucket ->
  construct_get url (VConstruct p) "bucketWebsiteUrl" (base ++ news)%list =
  Answer (VString (url p)) (base ++ news)%list.
Proof.
  intros -> Hi Hc. unfold construct_get.
  rewrite lookup_app_r by lia.
  replace (length base + i - length base) with i by lia.
  rewrite Hi, decide_True by assumption. reflexivity.
Qed.

(** The constructor in a scope that exists and has no child of that id. *)
Lemma run_CdkS3WebsiteStack url (t : Tree) scope id props parent :
  t !! scope = Some parent ->
  has_child id parent = false ->
  run (awscdk url) (CdkS3WebsiteStack scope id props) t =
  Done (VConstruct (length t))
    (<[scope := addChild parent id (length t)]> t ++
     declared url id props (length t))%list.
Proof.
  intros Hscope Hfresh.
  unfold CdkS3WebsiteStack. cbn [run awscdk].
  unfold construct_new at 1. rewrite Hscope, Hfresh. cbn [validate].
  set (base := <[scope := addChild parent id (length t)]> t).
  assert (Hlen : length base = length t) by apply length_insert.
  rewrite <- Hlen.
  erewrite (construct_new_child Bucket _ _ base _ 0);
    [ | lia | reflexivity | reflexivity | reflexivity ].
  cbn [run awscdk].
  erewrite (construct_new_child BucketDeployment _ _ base _ 0);
    [ | lia | reflexivity | reflexivity | reflexivity ].
  cbn [run awscdk].
  erewrite (construct_get_bucket url base _ 1);
    [ | cbn [length]; lia | reflexivity | reflexivity ].
  cbn [run awscdk].
  erewrite (construct_new_child CfnOutput _ _ base _ 0);
    [ | lia | reflexivity | reflexivity | reflexivity ].
  cbn [run]. reflexivity.
Qed.


(** A bucket whose props the library refuses: the call is rejected. *)
Lemma construct_new_child_invalid c id props (base news : Tree) i p parent msg :
  p = length base + i ->
  news !! i = Some parent ->
  has_child id parent = false ->
  validate c props = Some msg ->
  exists t', construct_new c (VConstruct p) id props (base ++ news)%list =
             Reject msg t'.
Proof.
  intros -> Hi Hfresh Hvalid. unfold construct_new.
  rewrite lookup_app_r by lia.
  replace (length base + i - length base) with i by lia.
  rewrite Hi, Hfresh, Hvalid. eexists. reflexivity.
Qed.

(** The constructor on every input: the only errors are those of [super]. *)
Lemma run_CdkS3WebsiteStack_cases url (t : Tree) scope id props :
  run (awscdk url) (CdkS3WebsiteStack scope id props) t =
  match t !! scope with
  | None => Raised External msg_scope t
  | Some parent =>
      if has_child id parent then Raised External (msg_duplicate id) t
      else Done (VConstruct (length t))
             (<[scope := addChild parent id (length t)]> t ++
              declared url id props (length t))%list
  end.
Proof.
  destruct (t !! scope) as [parent|] eqn:Hscope.
  - destruct (has_child id parent) eqn:Hfresh.
    + unfold CdkS3WebsiteStack. cbn [run awscdk]. unfold construct_new.
      rewrite Hscope, Hfresh. reflexivity.
    + apply run_CdkS3WebsiteStack; assumption.
  - unfold CdkS3WebsiteStack. cbn [run awscdk]. unfold construct_new.
    rewrite Hscope. reflexivity.
Qed.

(** The first listing of the walkthrough stops at its bucket. *)
Lemma run_CdkS3WebsiteStack_step3 url (t : Tree) scope id props parent :
  t !! scope = Some parent ->
  has_child id parent = false ->
  exists t', run (awscdk url) (CdkS3WebsiteStack_step3 scope id props) t =
             Raised External msg_publicReadAccess t'.
Proof.
  intros Hscope Hfresh.
  unfold CdkS3WebsiteStack_step3. cbn [run awscdk].
  unfold construct_new at 1. rewrite Hscope, Hfresh. cbn [validate].
  set (base := <[scope := addChild parent id (length t)]> t).
  assert (Hlen : length base = length t) by apply length_insert.
  rewrite <- Hlen.
  match goal with
  | |- context [construct_new Bucket _ ?i ?p (base ++ [?c])%list] =>
      destruct (construct_new_child_invalid Bucket i p base [c] 0
                  (length base) c msg_publicReadAccess) as [t' Ht'];
        [ lia | reflexivity | reflexivity | reflexivity | ]
  end.
  rewrite Ht'. eexists. reflexivity.
Qed.

(** *** The tree after a run *)

Section Final.
Variable url : nat -> string.
Variables (base : Tree) (id : string) (props : option Props).

Let n := length base.
Let t' : Tree := (base ++ declared url id props n)%list.

Lemma final_lookup i : t' !! (n + i) = declared url id props n !! i.
Proof. unfold t', n. rewrite lookup_app_r by lia. f_equal. lia. Qed.

Lemma final_stack : t' !! n = Some (stack_node id props n).
Proof. replace n with (n + 0) at 1 by lia. apply final_lookup. Qed.

Lemma final_children :
  children_of t' n =
  [("SriSriWebsiteBucket", n + 1); ("DeployWebsite", n + 2); ("WebsiteURL", n + 3)].
Proof. unfold children_of. rewrite final_stack. reflexivity. Qed.

Lemma final_class i c :
  declared url id props n !! i = Some c -> class_at t' (n + i) = Some (c_class c).
Proof. intros H. unfold class_at. rewrite final_lookup, H. reflexivity. Qed.

Lemma final_props i c :
  declared url id props n !! i = Some c ->
  props_at t' (n + i) = default ∅ (c_props c).
Proof. intros H. unfold props_at. rewrite final_lookup, H. reflexivity. Qed.

Lemma final_policy i c :
  declared url id props n !! i = Some c -> policy_at t' (n + i) = c_policy c.
Proof. intros H. unfold policy_at. rewrite final_lookup, H. reflexivity. Qed.

(** What the stack declares: three children, one of each class. *)
Lemma final_declares c cid r :
  declares t' n c cid r <->
  (c, cid, r) ∈ [(Bucket, "SriSriWebsiteBucket", n + 1);
                 (BucketDeployment, "DeployWebsite", n + 2);
                 (CfnOutput, "WebsiteURL", n + 3)].
Proof.
  unfold declares. rewrite final_children.
  rewrite !elem_of_cons, !elem_of_nil.
  split.
  - intros [[H | [H | [H | []]]] Hc]; injection H as -> ->.
    + rewrite (final_class 1 (bucket_node n)) in Hc by reflexivity.
      injection Hc as <-. auto.
    + rewrite (final_class 2 (deployment_node n)) in Hc by reflexivity.
      injection Hc as <-. auto.
    + rewrite (final_class 3 (output_node url n)) in Hc by reflexivity.
      injection Hc as <-. auto.
  - intros [H | [H | [H | []]]]; injection H as -> -> ->.
    + split; [auto | apply (final_class 1 (bucket_node n)); reflexivity].
    + split; [auto | apply (final_class 2 (deployment_node n)); reflexivity].
    + split; [auto 6 | apply (final_class 3 (output_node url n)); reflexivity].
Qed.

Lemma final_declares_Bucket cid r :
  declares t' n Bucket cid r <-> (cid, r) = ("SriSriWebsiteBucket", n + 1).
Proof.
  rewrite final_declares, !elem_of_cons, elem_of_nil.
  split.
  - intros [H | [H | [H | []]]]; congruence.
  - intros H. left. congruence.
Qed.

Lemma final_declares_BucketDeployment cid r :
  declares t' n BucketDeployment cid r <-> (cid, r) = ("DeployWebsite", n + 2).
Proof.
  rewrite final_declares, !elem_of_cons, elem_of_nil.
  split.
  - intros [H | [H | [H | []]]]; congruence.
  - intros H. right. left. congruence.
Qed.

Lemma final_declares_CfnOutput cid r :
  declares t' n CfnOutput cid r <-> (cid, r) = ("WebsiteURL", n + 3).
Proof.
  rewrite final_declares, !elem_of_cons, elem_of_nil.
  split.
  - intros [H | [H | [H | []]]]; congruence.
  - intros H. right. right. left. congruence.
Qed.

Lemma final_bucket_props : props_at t' (n + 1) = websiteBucket_props.
Proof. apply (final_props 1 (bucket_node n)). reflexivity. Qed.

Lemma final_deployment_props :
  props_at t' (n + 2) = DeployWebsite_props (VConstruct (n + 1)).
Proof. apply (final_props 2 (deployment_node n)). reflexivity. Qed.

Lemma final_output_props :
  props_at t' (n + 3) = WebsiteURL_props (VString (url (n + 1))).
Proof. apply (final_props 3 (output_node url n)). reflexivity. Qed.

End Final.

(** The outcome of the constructor, with the old objects of the tree set
    apart from the four new ones. *)
Lemma run_final url (t : Tree) scope id props parent :
  t !! scope = Some parent ->
  has_child id parent = false ->
  exists base : Tree,
    length base = length t /\
    run (awscdk url) (CdkS3WebsiteStack scope id props) t =
    Done (VConstruct (length base))
      (base ++ declared url id props (length base))%list.
Proof.
  intros Hscope Hfresh.
  exists (<[scope := addChild parent id (length t)]> t).
  split; [apply length_insert|].
  rewrite length_insert. apply run_CdkS3WebsiteStack; assumption.
Qed.

Ltac run_to_final base :=
  match goal with
  | Hs : ?t !! ?scope = Some ?parent, Hf : has_child ?id ?parent = false
    |- context [run (awscdk ?url) (CdkS3WebsiteStack ?scope ?id ?props) ?t] =>
      let Hlen := fresh "Hlen" in
      let Hrun := fresh "Hrun" in
      destruct (run_final url t scope id props parent Hs Hf)
        as (base & Hlen & Hrun);
      rewrite <- Hlen;
      exists (base ++ declared url id props (length base))%list;
      split; [exact Hrun|]; clear Hrun Hlen
  end.

(** Case analysis of a lookup in an object literal. *)
Ltac lookup_cases H :=
  repeat match type of H with
         | _ \/ _ => destruct H as [H | H]
         | _ /\ _ => destruct H as [_ H]
         end;
  congruence.

(** *** Programs against any library *)

Section AnyLibrary.
Context {St : Type}.

(** A straight-line program ends by returning, or with the rejection of one
    of its calls, passed on as it is. *)
Lemma StraightLine_run (lib : Op -> St -> Reply St) ks p :
  StraightLine ks p ->
  forall s,
    (exists v s', run lib p s = Done v s') \/
    (exists op s0 msg s',
        run lib p s = Raised External msg s' /\
        lib op s0 = Reject msg s' /\ kind op ∈ ks).
Proof.
  induction 1 as [ v | op k ks _ IH ]; intros s; cbn [run].
  - left. eauto.
  - destruct (lib op s) as [v s' | msg s'] eqn:E.
    + destruct (IH v s') as [Hd | (op' & s0 & msg & s1 & Hr & Hl & Hk)].
      * left. exact Hd.
      * right. exists op', s0, msg, s1. rewrite elem_of_cons. auto.
    + right. exists op, s, msg, s'. rewrite elem_of_cons. auto.
Qed.

(** Against a library that rejects nothing, a straight-line program
    returns. *)
Lemma StraightLine_returns (lib : Op -> St -> Reply St) ks p :
  StraightLine ks p ->
  (forall op s, exists v s', lib op s = Answer v s') ->
  forall s, exists v s', run lib p s = Done v s'.
Proof.
  intros Hsl Hlib. induction Hsl as [ v | op k ks _ IH ]; intros s; cbn [run].
  - eauto.
  - destruct (Hlib op s) as (v & s' & ->). apply IH.
Qed.

End AnyLibrary.

Lemma CdkS3WebsiteStack_StraightLine scope id props :
  StraightLine CdkS3WebsiteStack_calls (CdkS3WebsiteStack scope id props).
Proof.
  unfold CdkS3WebsiteStack_calls, CdkS3WebsiteStack.
  repeat (apply (sl_Call (New _ _ _ _)) || apply (sl_Call (Get _ _)); intros ?).
  apply sl_Ret.
Qed.

(** The props of the bucket of the stack set no [autoDeleteObjects]; the
    first listing of the walkthrough does. *)
Lemma websiteBucket_props_autoDeleteObjects :
  websiteBucket_props !! "autoDeleteObjects" = None /\
  websiteBucket_props !! "removalPolicy" = Some (VRemovalPolicy DESTROY).
Proof. split; reflexivity. Qed.

(** The validation accepts exactly the consistent configurations. *)
Lemma consistent_validate (bprops : Props) :
  consistent bprops = true <-> Bucket_validate bprops = None.
Proof.
  unfold consistent, Bucket_validate, requests_public_read, blocks_grant.
  destruct (truthy (bprops !! "publicReadAccess")); cbn [andb negb].
  - destruct (bprops !! "blockPublicAccess") as [[ | ? | ? | ? | bpa | ? | ? ]|];
      try (split; discriminate).
    destruct (blockPublicPolicy bpa); cbn [negb]; split; congruence.
  - split; reflexivity.
Qed.

(** A bucket that fails the validation is rejected wherever it is declared. *)
Lemma construct_new_invalid c id props (t : Tree) p parent msg :
  t !! p = Some parent ->
  has_child id parent = false ->
  validate c props = Some msg ->
  exists t', construct_new c (VConstruct p) id props t = Reject msg t'.
Proof.
  intros Hp Hfresh Hvalid. unfold construct_new.
  rewrite Hp, Hfresh, Hvalid. eexists. reflexivity.
Qed.

(** ** Properties of the stack *)

(** The first listing of the walkthrough against the library: the calls it
    makes and how it ends. *)
Lemma run_calls_CdkS3WebsiteStack_step3 url (t : Tree) scope id props parent :
  t !! scope = Some parent ->
  has_child id parent = false ->
  exists t',
    run (awscdk url) (CdkS3WebsiteStack_step3 scope id props) t =
      Raised External msg_publicReadAccess t' /\
    calls (awscdk url) (CdkS3WebsiteStack_step3 scope id props) t =
      [ New Stack (VConstruct scope) id props;
        New Bucket (VConstruct (length t)) "WebsiteBucket"
          (Some WebsiteBucket_step3_props) ].
Proof.
  intros Hscope Hfresh.
  set (base := <[scope := addChild parent id (length t)]> t).
  assert (Hlen : length base = length t) by apply length_insert.
  set (stack0 := {| c_class := Stack; c_id := id; c_props := props;
                    c_children := []; c_policy := [] |}).
  assert (Hsuper : awscdk url (New Stack (VConstruct scope) id props) t =
                   Answer (VConstruct (length t)) (base ++ [stack0])%list).
  { cbn [awscdk]. unfold construct_new. rewrite Hscope, Hfresh. reflexivity. }
  destruct (construct_new_child_invalid Bucket "WebsiteBucket"
              (Some WebsiteBucket_step3_props) base [stack0] 0 (length t)
              stack0 msg_publicReadAccess) as [t' Ht'];
    [ lia | reflexivity | reflexivity | reflexivity | ].
  exists t'.
  unfold CdkS3WebsiteStack_step3. cbn [run calls]. rewrite Hsuper.
  change (awscdk url (New Bucket (VConstruct (length t)) "WebsiteBucket" _) _)
    with (construct_new Bucket (VConstruct (length t)) "WebsiteBucket"
            (Some WebsiteBucket_step3_props) (base ++ [stack0])%list).
  rewrite Ht'. split; reflexivity.
Qed.

(** C1.  The stack declares a bucket, [SriSriWebsiteBucket], and every
    bucket it declares requests public read ([publicReadAccess] is [true])
    and pairs it with [BLOCK_ACLS], which does not block the bucket policy
    through which public read is granted: the pair is consistent, the
    validation of the library accepts it, and the constructor returns in
    every scope that takes the stack.  A bucket whose two settings are
    inconsistent is rejected by the validation of the library, with one of
    its two messages.  So is the first listing of the walkthrough: the call
    it ends at is its bucket, which requests public read and gives no
    access-block policy, and the error is the rejection the walkthrough
    quotes. *)
Theorem C1_public_read_consistent
  (url : nat -> string) (t : Tree) scope id props parent :
  t !! scope = Some parent ->
  has_child id parent = false ->
  (exists t',
      run (awscdk url) (CdkS3WebsiteStack scope id props) t =
        Done (VConstruct (length t)) t' /\
      declares t' (length t) Bucket "SriSriWebsiteBucket" (length t + 1) /\
      forall cid b,
        declares t' (length t) Bucket cid b ->
        props_at t' b !! "publicReadAccess" = Some (VBool true) /\
        props_at t' b !! "blockPublicAccess" =
          Some (VBlockPublicAccess BLOCK_ACLS) /\
        requests_public_read (props_at t' b) = true /\
        blocks_grant (props_at t' b) = false /\
        consistent (props_at t' b) = true /\
        Bucket_validate (props_at t' b) = None) /\
  (forall bprops, consistent bprops = true <-> Bucket_validate bprops = None) /\
  (forall bid bprops (t0 : Tree) p par,
      t0 !! p = Some par ->
      has_child bid par = false ->
      consistent bprops = false ->
      exists msg t1,
        awscdk url (New Bucket (VConstruct p) bid (Some bprops)) t0 = Reject msg t1 /\
        (msg = msg_publicReadAccess \/ msg = msg_blockPublicPolicy)) /\
  (exists t',
      run (awscdk url) (CdkS3WebsiteStack_step3 scope id props) t =
        Raised External msg_publicReadAccess t' /\
      last (calls (awscdk url) (CdkS3WebsiteStack_step3 scope id props) t) =
        Some (New Bucket (VConstruct (length t)) "WebsiteBucket"
                (Some WebsiteBucket_step3_props)) /\
      requests_public_read WebsiteBucket_step3_props = true /\
      WebsiteBucket_step3_props !! "blockPublicAccess" = None /\
      blocks_grant WebsiteBucket_step3_props = true).
Proof.
  intros Hscope Hfresh.
  split; [|split; [|split]].
  - run_to_final base.
    split; [apply final_declares_Bucket; reflexivity|].
    intros cid b Hd.
    apply final_declares_Bucket in Hd. injection Hd as -> ->.
    rewrite final_bucket_props. repeat split.
  - apply consistent_validate.
  - intros bid bprops t0 p par Hp Hb Hc. cbn [awscdk].
    assert (Hv : exists msg, validate Bucket (Some bprops) = Some msg /\
                 (msg = msg_publicReadAccess \/ msg = msg_blockPublicPolicy)).
    { revert Hc.
      unfold consistent, validate, Bucket_validate, requests_public_read, blocks_grant.
      change (default ∅ (Some bprops)) with bprops.
      destruct (truthy (bprops !! "publicReadAccess")); [|discriminate].
      destruct (bprops !! "blockPublicAccess") as [[ | ? | ? | ? | bpa | ? | ? ]|];
        try destruct (blockPublicPolicy bpa); try discriminate;
        intros _; eexists; (split; [reflexivity | auto]). }
    destruct Hv as (msg & Hv & Hmsg).
    destruct (construct_new_invalid Bucket bid (Some bprops) t0 p par msg Hp Hb Hv)
      as [t1 Ht1].
    exists msg, t1. auto.
  - destruct (run_calls_CdkS3WebsiteStack_step3 url t scope id props parent
                Hscope Hfresh) as (t' & Hrun & Hcalls).
    exists t'. split; [exact Hrun|]. rewrite Hcalls. repeat split.
Qed.

(** C3.  Every deployment the stack declares has a [destinationBucket] that
    is the reference to a bucket declared by the same stack, and declared
    before it.  The stack declares one deployment, [DeployWebsite], and its
    destination is the bucket [SriSriWebsiteBucket] that the constructor
    created just before. *)
Theorem C3_destination_in_same_stack
  (url : nat -> string) (t : Tree) scope id props parent :
  t !! scope = Some parent ->
  has_child id parent = false ->
  exists t',
    run (awscdk url) (CdkS3WebsiteStack scope id props) t =
      Done (VConstruct (length t)) t' /\
    (forall cid d,
        declares t' (length t) BucketDeployment cid d ->
        exists bid b,
          props_at t' d !! "destinationBucket" = Some (VConstruct b) /\
          declares t' (length t) Bucket bid b /\ b < d) /\
    (forall cid d,
        declares t' (length t) BucketDeployment cid d <->
        (cid, d) = ("DeployWebsite", length t + 2)) /\
    props_at t' (length t + 2) !! "destinationBucket" =
      Some (VConstruct (length t + 1)) /\
    declares t' (length t) Bucket "SriSriWebsiteBucket" (length t + 1).
Proof.
  intros Hscope Hfresh. run_to_final base.
  assert (Hb : declares (base ++ declared url id props (length base))
                 (length base) Bucket "SriSriWebsiteBucket" (length base + 1))
    by (apply final_declares_Bucket; reflexivity).
  assert (Hd : props_at (base ++ declared url id props (length base))
                 (length base + 2) !! "destinationBucket" =
               Some (VConstruct (length base + 1)))
    by (rewrite final_deployment_props; reflexivity).
  split; [|split; [|split]].
  - intros cid d H. apply final_declares_BucketDeployment in H.
    injection H as -> ->.
    exists "SriSriWebsiteBucket", (length base + 1).
    split; [exact Hd|]. split; [exact Hb | lia].
  - intros cid d. apply final_declares_BucketDeployment.
  - exact Hd.
  - exact Hb.
Qed.

(** C5.  The stack declares one output, [WebsiteURL]; its props are the one
    field [value], and the value is the string the library gives for
    [bucketWebsiteUrl] of the bucket the stack declares, whatever that
    string is: the constructor passes it on as it is. *)
Theorem C5_single_output
  (url : nat -> string) (t : Tree) scope id props parent :
  t !! scope = Some parent ->
  has_child id parent = false ->
  exists t',
    run (awscdk url) (CdkS3WebsiteStack scope id props) t =
      Done (VConstruct (length t)) t' /\
    (forall cid o,
        declares t' (length t) CfnOutput cid o <->
        (cid, o) = ("WebsiteURL", length t + 3)) /\
    props_at t' (length t + 3) = {[ "value" := VString (url (length t + 1)) ]} /\
    declares t' (length t) Bucket "SriSriWebsiteBucket" (length t + 1) /\
    awscdk url (Get (VConstruct (length t + 1)) "bucketWebsiteUrl") t' =
      Answer (VString (url (length t + 1))) t'.
Proof.
  intros Hscope Hfresh. run_to_final base.
  split; [|split; [|split]].
  - intros cid o. apply final_declares_CfnOutput.
  - apply final_output_props.
  - apply final_declares_Bucket. reflexivity.
  - cbn [awscdk].
    apply (construct_get_bucket url base _ 1 _ (bucket_node (length base)));
      reflexivity.
Qed.

(** C6.  The constructor adds four objects to the tree: the stack and its
    three children, in this order the bucket [SriSriWebsiteBucket], the
    deployment [DeployWebsite] and the output [WebsiteURL].  The stack has
    no other child and the three have none. *)
Theorem C6_three_declarations
  (url : nat -> string) (t : Tree) scope id props parent :
  t !! scope = Some parent ->
  has_child id parent = false ->
  exists t',
    run (awscdk url) (CdkS3WebsiteStack scope id props) t =
      Done (VConstruct (length t)) t' /\
    length t' = length t + 4 /\
    class_at t' (length t) = Some Stack /\
    children_of t' (length t) =
      [("SriSriWebsiteBucket", length t + 1); ("DeployWebsite", length t + 2);
       ("WebsiteURL", length t + 3)] /\
    class_at t' <$> [length t + 1; length t + 2; length t + 3] =
      [Some Bucket; Some BucketDeployment; Some CfnOutput] /\
    children_of t' <$> [length t + 1; length t + 2; length t + 3] = [[]; []; []].
Proof.
  intros Hscope Hfresh. run_to_final base.
  split; [|split; [|split; [|split]]].
  - rewrite length_app. reflexivity.
  - unfold class_at. rewrite final_stack. reflexivity.
  - apply final_children.
  - cbn [fmap list_fmap].
    rewrite (final_class url base id props 1 (bucket_node _)) by reflexivity.
    rewrite (final_class url base id props 2 (deployment_node _)) by reflexivity.
    rewrite (final_class url base id props 3 (output_node url _)) by reflexivity.
    reflexivity.
  - cbn [fmap list_fmap]. unfold children_of.
    rewrite !final_lookup. reflexivity.
Qed.

(** C7.  The props of the bucket are the four fields
    [websiteIndexDocument], [publicReadAccess], [blockPublicAccess] and
    [removalPolicy] and no other, with the values ['index.html'], [true],
    [BLOCK_ACLS] and [DESTROY]. *)
Theorem C7_bucket_configuration
  (url : nat -> string) (t : Tree) scope id props parent :
  t !! scope = Some parent ->
  has_child id parent = false ->
  exists t',
    run (awscdk url) (CdkS3WebsiteStack scope id props) t =
      Done (VConstruct (length t)) t' /\
    (forall cid b,
        declares t' (length t) Bucket cid b ->
        dom (props_at t' b) =
          ({[ "websiteIndexDocument"; "publicReadAccess";
              "blockPublicAccess"; "removalPolicy" ]} : gset string) /\
        props_at t' b !! "websiteIndexDocument" = Some (VString "index.html") /\
        props_at t' b !! "publicReadAccess" = Some (VBool true) /\
        props_at t' b !! "blockPublicAccess" = Some (VBlockPublicAccess BLOCK_ACLS) /\
        props_at t' b !! "removalPolicy" = Some (VRemovalPolicy DESTROY)) /\
    declares t' (length t) Bucket "SriSriWebsiteBucket" (length t + 1).
Proof.
  intros Hscope Hfresh. run_to_final base.
  split.
  - intros cid b H. apply final_declares_Bucket in H. injection H as -> ->.
    rewrite final_bucket_props.
    split; [|repeat split].
    unfold websiteBucket_props.
    rewrite !dom_insert_L, dom_singleton_L. set_solver.
  - apply final_declares_Bucket. reflexivity.
Qed.

(** C8.  The constructor is straight-line: on every input and whatever the
    library answers it makes the same five calls in the same order ([super],
    the three declarations with their ids and props, and the read of the
    website URL between the second and the third), with no branch, no
    [throw] and no [try].  It raises no error of its own on any input: a run
    ends by returning, or with the rejection of one of the calls by the
    library, passed on as it is; against a library that rejects nothing it
    returns, having made all the calls. *)
Theorem C8_straight_line_total
  {St : Type} (lib : Op -> St -> Reply St) scope id props (s : St) :
  StraightLine CdkS3WebsiteStack_calls (CdkS3WebsiteStack scope id props) /\
  (exists this websiteBucket url,
      calls lib (CdkS3WebsiteStack scope id props) s `prefix_of`
      CdkS3WebsiteStack_ops scope id props this websiteBucket url) /\
  (forall msg s', run lib (CdkS3WebsiteStack scope id props) s <> Raised Own msg s') /\
  ((exists v s', run lib (CdkS3WebsiteStack scope id props) s = Done v s') \/
   (exists op s0 msg s',
       run lib (CdkS3WebsiteStack scope id props) s = Raised External msg s' /\
       lib op s0 = Reject msg s' /\ kind op ∈ CdkS3WebsiteStack_calls)) /\
  ((forall op s0, exists v s1, lib op s0 = Answer v s1) ->
   exists this websiteBucket url s',
     run lib (CdkS3WebsiteStack scope id props) s = Done this s' /\
     calls lib (CdkS3WebsiteStack scope id props) s =
       CdkS3WebsiteStack_ops scope id props this websiteBucket url).
Proof.
  pose proof (CdkS3WebsiteStack_StraightLine scope id props) as Hsl.
  pose proof (StraightLine_run lib _ _ Hsl s) as Hrun.
  split; [exact Hsl|]. split; [|split; [|split; [exact Hrun|]]].
  - unfold CdkS3WebsiteStack, CdkS3WebsiteStack_ops. cbn [calls].
    destruct (lib _ s) as [this s1|? ?];
      [|exists VUndefined, VUndefined, VUndefined;
        apply prefix_cons, prefix_nil].
    destruct (lib _ s1) as [b s2|? ?];
      [|exists this, VUndefined, VUndefined;
        do 2 apply prefix_cons; apply prefix_nil].
    destruct (lib _ s2) as [d s3|? ?];
      [|exists this, b, VUndefined; do 3 apply prefix_cons; apply prefix_nil].
    destruct (lib _ s3) as [u s4|? ?];
      [|exists this, b, VUndefined; do 4 apply prefix_cons; apply prefix_nil].
    exists this, b, u.
    destruct (lib _ s4) as [o s5|? ?]; reflexivity.
  - intros msg s' E.
    destruct Hrun as [(v & s1 & Hd) | (op & s0 & m & s1 & Hr & _)];
      rewrite E in *; discriminate.
  - intros Hlib.
    unfold CdkS3WebsiteStack, CdkS3WebsiteStack_ops. cbn [calls run].
    destruct (Hlib (New Stack (VConstruct scope) id props) s) as (this & s1 & ->).
    destruct (Hlib (New Bucket this "SriSriWebsiteBucket"
                      (Some websiteBucket_props)) s1) as (b & s2 & E2).
    unfold websiteBucket_props in E2. rewrite E2.
    destruct (Hlib (New BucketDeployment this "DeployWebsite"
                      (Some (DeployWebsite_props b))) s2) as (d & s3 & E3).
    unfold DeployWebsite_props in E3. rewrite E3.
    destruct (Hlib (Get b "bucketWebsiteUrl") s3) as (u & s4 & ->).
    destruct (Hlib (New CfnOutput this "WebsiteURL"
                      (Some (WebsiteURL_props u))) s4) as (o & s5 & E5).
    unfold WebsiteURL_props in E5. rewrite E5.
    exists this, b, u, s5. split; reflexivity.
Qed.

(** C9.  The bucket the stack declares has the access-block policy
    [BLOCK_ACLS]: the two flags that block public access through ACLs are
    set, the flag that blocks a public bucket policy is not.  The props ask
    for no ACL ([accessControl] is absent), and the public read they ask for
    is granted by one statement of the bucket policy. *)
Theorem C9_block_acls
  (url : nat -> string) (t : Tree) scope id props parent :
  t !! scope = Some parent ->
  has_child id parent = false ->
  exists t',
    run (awscdk url) (CdkS3WebsiteStack scope id props) t =
      Done (VConstruct (length t)) t' /\
    declares t' (length t) Bucket "SriSriWebsiteBucket" (length t + 1) /\
    forall cid b,
      declares t' (length t) Bucket cid b ->
      props_at t' b !! "blockPublicAccess" = Some (VBlockPublicAccess BLOCK_ACLS) /\
      blockPublicAcls BLOCK_ACLS = true /\
      ignorePublicAcls BLOCK_ACLS = true /\
      blockPublicPolicy BLOCK_ACLS = false /\
      props_at t' b !! "accessControl" = None /\
      policy_at t' b = [grantPublicAccess b].
Proof.
  intros Hscope Hfresh. run_to_final base.
  split; [apply final_declares_Bucket; reflexivity|].
  intros cid b H. apply final_declares_Bucket in H. injection H as -> ->.
  rewrite final_bucket_props.
  rewrite (final_policy url base id props 1 (bucket_node _)) by reflexivity.
  repeat split.
Qed.

(** C10.  The stack declares one bucket.  The destination of the deployment
    is the reference to that bucket, the value of the output is the website
    URL of that bucket, and every reference to a construct in the props of
    the children of the stack is the reference to it.  The sources of the
    deployment are one asset, the directory ['./website']. *)
Theorem C10_one_bucket
  (url : nat -> string) (t : Tree) scope id props parent :
  t !! scope = Some parent ->
  has_child id parent = false ->
  exists t',
    run (awscdk url) (CdkS3WebsiteStack scope id props) t =
      Done (VConstruct (length t)) t' /\
    (forall cid b,
        declares t' (length t) Bucket cid b <->
        (cid, b) = ("SriSriWebsiteBucket", length t + 1)) /\
    props_at t' (length t + 2) !! "destinationBucket" =
      Some (VConstruct (length t + 1)) /\
    props_at t' (length t + 3) !! "value" =
      Some (VString (url (length t + 1))) /\
    (forall cid r k b,
        (cid, r) ∈ children_of t' (length t) ->
        props_at t' r !! k = Some (VConstruct b) ->
        b = length t + 1) /\
    props_at t' (length t + 2) !! "sources" =
      Some (VSources [Source_asset "./website"]).
Proof.
  intros Hscope Hfresh. run_to_final base.
  split; [|split; [|split; [|split]]].
  - intros cid b. apply final_declares_Bucket.
  - rewrite final_deployment_props. reflexivity.
  - rewrite final_output_props. reflexivity.
  - intros cid r k b Hin Hk. rewrite final_children in Hin.
    rewrite !elem_of_cons, elem_of_nil in Hin.
    destruct Hin as [H | [H | [H | []]]]; injection H as -> ->.
    + rewrite final_bucket_props in Hk. unfold websiteBucket_props in Hk.
      rewrite !lookup_insert_Some, lookup_singleton_Some in Hk.
      lookup_cases Hk.
    + rewrite final_deployment_props in Hk. unfold DeployWebsite_props in Hk.
      rewrite !lookup_insert_Some, lookup_singleton_Some in Hk.
      lookup_cases Hk.
    + rewrite final_output_props in Hk. unfold WebsiteURL_props in Hk.
      rewrite lookup_singleton_Some in Hk.
      lookup_cases Hk.
  - rewrite final_deployment_props. reflexivity.
Qed.

(** ** The properties on an example: a stack in a root that has no child *)

Lemma C1_public_read_consistent_witness :
  [root] !! 0 = Some root /\
  has_child "CdkS3WebsiteStack" root = false /\
  (exists t',
      run (awscdk url_token) (CdkS3WebsiteStack 0 "CdkS3WebsiteStack" None) [root] =
        Done (VConstruct 1) t' /\
      declares t' 1 Bucket "SriSriWebsiteBucket" 2 /\
      props_at t' 2 !! "publicReadAccess" = Some (VBool true) /\
      props_at t' 2 !! "blockPublicAccess" = Some (VBlockPublicAccess BLOCK_ACLS) /\
      Bucket_validate (props_at t' 2) = None) /\
  (exists t',
      run (awscdk url_token) (CdkS3WebsiteStack_step3 0 "CdkS3WebsiteStack" None) [root] =
        Raised External msg_publicReadAccess t').
Proof.
  split; [reflexivity|]. split; [reflexivity|].
  destruct (C1_public_read_consistent url_token [root] 0 "CdkS3WebsiteStack"
              None root eq_refl eq_refl)
    as ((t' & Hrun & Hb & Hall) & _ & _ & (t3 & Hstep3 & _)).
  destruct (Hall _ _ Hb) as (Hp & Hbpa & _ & _ & _ & Hv).
  split.
  - exists t'. split; [exact Hrun|]. split; [exact Hb|].
    split; [exact Hp|]. split; [exact Hbpa | exact Hv].
  - exists t3. exact Hstep3.
Defined.

Lemma C3_destination_in_same_stack_witness :
  [root] !! 0 = Some root /\
  has_child "CdkS3WebsiteStack" root = false /\
  exists t',
    run (awscdk url_token) (CdkS3WebsiteStack 0 "CdkS3WebsiteStack" None) [root] =
      Done (VConstruct 1) t' /\
    props_at t' 3 !! "destinationBucket" = Some (VConstruct 2) /\
    declares t' 1 Bucket "SriSriWebsiteBucket" 2.
Proof.
  split; [reflexivity|]. split; [reflexivity|].
  destruct (C3_destination_in_same_stack url_token [root] 0 "CdkS3WebsiteStack"
              None root eq_refl eq_refl)
    as (t' & Hrun & _ & _ & Hd & Hb).
  exists t'. split; [exact Hrun|]. split; [exact Hd | exact Hb].
Defined.

Lemma C5_single_output_witness :
  [root] !! 0 = Some root /\
  has_child "CdkS3WebsiteStack" root = false /\
  exists t',
    run (awscdk url_token) (CdkS3WebsiteStack 0 "CdkS3WebsiteStack" None) [root] =
      Done (VConstruct 1) t' /\
    props_at t' 4 = {[ "value" := VString (url_token 2) ]}.
Proof.
  split; [reflexivity|]. split; [reflexivity|].
  destruct (C5_single_output url_token [root] 0 "CdkS3WebsiteStack"
              None root eq_refl eq_refl)
    as (t' & Hrun & _ & Hv & _).
  exists t'. split; [exact Hrun | exact Hv].
Defined.

Lemma C6_three_declarations_witness :
  [root] !! 0 = Some root /\
  has_child "CdkS3WebsiteStack" root = false /\
  exists t',
    run (awscdk url_token) (CdkS3WebsiteStack 0 "CdkS3WebsiteStack" None) [root] =
      Done (VConstruct 1) t' /\
    length t' = 5 /\
    children_of t' 1 =
      [("SriSriWebsiteBucket", 2); ("DeployWebsite", 3); ("WebsiteURL", 4)].
Proof.
  split; [reflexivity|]. split; [reflexivity|].
  destruct (C6_three_declarations url_token [root] 0 "CdkS3WebsiteStack"
              None root eq_refl eq_refl)
    as (t' & Hrun & Hlen & _ & Hch & _).
  exists t'. split; [exact Hrun|]. split; [exact Hlen | exact Hch].
Defined.

Lemma C7_bucket_configuration_witness :
  [root] !! 0 = Some root /\
  has_child "CdkS3WebsiteStack" root = false /\
  exists t',
    run (awscdk url_token) (CdkS3WebsiteStack 0 "CdkS3WebsiteStack" None) [root] =
      Done (VConstruct 1) t' /\
    dom (props_at t' 2) =
      ({[ "websiteIndexDocument"; "publicReadAccess";
          "blockPublicAccess"; "removalPolicy" ]} : gset string).
Proof.
  split; [reflexivity|]. split; [reflexivity|].
  destruct (C7_bucket_configuration url_token [root] 0 "CdkS3WebsiteStack"
              None root eq_refl eq_refl)
    as (t' & Hrun & Hall & Hb).
  exists t'. split; [exact Hrun|].
  exact (proj1 (Hall _ _ Hb)).
Defined.

Lemma C8_straight_line_total_witness :
  (forall (op : Op) (s0 : unit), exists v s1, accepting op s0 = Answer v s1) /\
  exists this s',
    run accepting (CdkS3WebsiteStack 0 "CdkS3WebsiteStack" None) tt = Done this s'.
Proof.
  assert (H : forall (op : Op) (s0 : unit),
             exists v s1, accepting op s0 = Answer v s1)
    by (intros op s0; exists VUndefined, s0; reflexivity).
  split; [exact H|].
  destruct (C8_straight_line_total accepting 0 "CdkS3WebsiteStack" None tt)
    as (_ & _ & _ & _ & Hret).
  destruct (Hret H) as (this & b & u & s' & Hrun & _).
  exists this, s'. exact Hrun.
Defined.

Lemma C9_block_acls_witness :
  [root] !! 0 = Some root /\
  has_child "CdkS3WebsiteStack" root = false /\
  exists t',
    run (awscdk url_token) (CdkS3WebsiteStack 0 "CdkS3WebsiteStack" None) [root] =
      Done (VConstruct 1) t' /\
    props_at t' 2 !! "blockPublicAccess" = Some (VBlockPublicAccess BLOCK_ACLS) /\
    policy_at t' 2 = [grantPublicAccess 2].
Proof.
  split; [reflexivity|]. split; [reflexivity|].
  destruct (C9_block_acls url_token [root] 0 "CdkS3WebsiteStack"
              None root eq_refl eq_refl)
    as (t' & Hrun & Hb & Hall).
  exists t'. split; [exact Hrun|].
  destruct (Hall _ _ Hb) as (Hp & _ & _ & _ & _ & Hpol).
  split; [exact Hp | exact Hpol].
Defined.

Lemma C10_one_bucket_witness :
  [root] !! 0 = Some root /\
  has_child "CdkS3WebsiteStack" root = false /\
  exists t',
    run (awscdk url_token) (CdkS3WebsiteStack 0 "CdkS3WebsiteStack" None) [root] =
      Done (VConstruct 1) t' /\
    props_at t' 3 !! "destinationBucket" = Some (VConstruct 2) /\
    props_at t' 4 !! "value" = Some (VString (url_token 2)) /\
    props_at t' 3 !! "sources" = Some (VSources [Source_asset "./website"]).
Proof.
  split; [reflexivity|]. split; [reflexivity|].
  destruct (C10_one_bucket url_token [root] 0 "CdkS3WebsiteStack"
              None root eq_refl eq_refl)
    as (t' & Hrun & _ & Hd & Hv & _ & Hs).
  exists t'. split; [exact Hrun|]. split; [exact Hd|]. split; [exact Hv | exact Hs].
Defined.

(** ** Further properties of the two listings *)

(** The tree after a run, by lookups: the scope has the stack as one more
    child, the other old objects are as they were, the four new objects
    follow. *)
Lemma run_lookup url (t : Tree) scope id props parent :
  t !! scope = Some parent ->
  has_child id parent = false ->
  exists t' : Tree,
    run (awscdk url) (CdkS3WebsiteStack scope id props) t =
      Done (VConstruct (length t)) t' /\
    length t' = length t + 4 /\
    t' !! scope = Some (addChild parent id (length t)) /\
    (forall r, r < length t -> r <> scope -> t' !! r = t !! r) /\
    (forall i, t' !! (length t + i) = declared url id props (length t) !! i).
Proof.
  intros Hscope Hfresh.
  pose proof (lookup_lt_Some _ _ _ Hscope) as Hlt.
  eexists. split; [apply run_CdkS3WebsiteStack; eassumption|].
  split; [|split; [|split]].
  - rewrite length_app, length_insert. reflexivity.
  - rewrite lookup_app_l by (rewrite length_insert; exact Hlt).
    apply list_lookup_insert_eq. exact Hlt.
  - intros r Hr Hne.
    rewrite lookup_app_l by (rewrite length_insert; exact Hr).
    apply list_lookup_insert_ne. congruence.
  - intros i.
    rewrite lookup_app_r by (rewrite length_insert; lia).
    rewrite length_insert. f_equal. lia.
Qed.

Lemma has_child_addChild x parent id r :
  has_child x (addChild parent id r) = has_child x parent || String.eqb id x.
Proof.
  unfold has_child, addChild. cbn [c_children].
  rewrite existsb_app. cbn [existsb fst]. rewrite orb_false_r. reflexivity.
Qed.


(** X1.  The constructor leaves the objects that were in the tree as they
    were, except the scope, which gets the stack as its last child and
    keeps its class, id, props, policy and other children; the reference it
    returns was the reference of no object before. *)
Theorem X1_frame
  (url : nat -> string) (t : Tree) scope id props parent :
  t !! scope = Some parent ->
  has_child id parent = false ->
  exists t' p',
    run (awscdk url) (CdkS3WebsiteStack scope id props) t =
      Done (VConstruct (length t)) t' /\
    t !! length t = None /\
    (forall r, r < length t -> r <> scope -> t' !! r = t !! r) /\
    t' !! scope = Some p' /\
    c_class p' = c_class parent /\ c_id p' = c_id parent /\
    c_props p' = c_props parent /\ c_policy p' = c_policy parent /\
    c_children p' = (c_children parent ++ [(id, length t)])%list.
Proof.
  intros Hscope Hfresh.
  destruct (run_lookup url t scope id props parent Hscope Hfresh)
    as (t' & Hrun & _ & Hs & Hold & _).
  exists t', (addChild parent id (length t)).
  split; [exact Hrun|]. split; [apply lookup_ge_None; lia|].
  split; [exact Hold|]. split; [exact Hs|]. repeat split.
Qed.


(** X3.  Two stacks in one scope, under two different ids: both runs
    return, the scope gets the two stacks as children, each stack declares
    its own bucket, and the deployment of each stack has the bucket of its
    own stack as destination.  The second run leaves the objects of the
    first stack as they were. *)
Theorem X3_two_stacks
  (url : nat -> string) (t : Tree) scope id1 props1 id2 props2 parent :
  t !! scope = Some parent ->
  has_child id1 parent = false ->
  has_child id2 parent = false ->
  id1 <> id2 ->
  exists t1 t2,
    run (awscdk url) (CdkS3WebsiteStack scope id1 props1) t =
      Done (VConstruct (length t)) t1 /\
    run (awscdk url) (CdkS3WebsiteStack scope id2 props2) t1 =
      Done (VConstruct (length t + 4)) t2 /\
    children_of t2 scope =
      (c_children parent ++ [(id1, length t); (id2, length t + 4)])%list /\
    (forall i, i < 4 -> t2 !! (length t + i) = t1 !! (length t + i)) /\
    declares t2 (length t) Bucket "SriSriWebsiteBucket" (length t + 1) /\
    declares t2 (length t + 4) Bucket "SriSriWebsiteBucket" (length t + 5) /\
    props_at t2 (length t + 2) !! "destinationBucket" =
      Some (VConstruct (length t + 1)) /\
    props_at t2 (length t + 6) !! "destinationBucket" =
      Some (VConstruct (length t + 5)).
Proof.
  intros Hscope Hf1 Hf2 Hne.
  pose proof (lookup_lt_Some _ _ _ Hscope) as Hlt.
  destruct (run_lookup url t scope id1 props1 parent Hscope Hf1)
    as (t1 & Hrun1 & Hlen1 & Hs1 & _ & Hnew1).
  assert (Hf2' : has_child id2 (addChild parent id1 (length t)) = false).
  { rewrite has_child_addChild, Hf2. cbn [orb].
    apply String.eqb_neq. exact Hne. }
  destruct (run_lookup url t1 scope id2 props2 _ Hs1 Hf2')
    as (t2 & Hrun2 & Hlen2 & Hs2 & Hold2 & Hnew2).
  rewrite Hlen1 in Hrun2, Hs2, Hold2, Hnew2.
  assert (Hkeep : forall i, i < 4 -> t2 !! (length t + i) = t1 !! (length t + i))
    by (intros i Hi; apply Hold2; lia).
  assert (Hnew2' : forall j i, j = length t + 4 + i ->
                     t2 !! j = declared url id2 props2 (length t + 4) !! i)
    by (intros j i ->; apply Hnew2).
  exists t1, t2.
  split; [exact Hrun1|]. split; [exact Hrun2|]. split; [|split; [exact Hkeep|]].
  { unfold children_of. rewrite Hs2. cbn [fmap option_fmap option_map default
      from_option Datatypes.id addChild c_children].
    rewrite <- app_assoc. reflexivity. }
  assert (H0 : t2 !! (length t) = Some (stack_node id1 props1 (length t))).
  { replace (length t) with (length t + 0) at 1 by lia.
    rewrite Hkeep by lia. rewrite Hnew1. reflexivity. }
  assert (H1 : t2 !! (length t + 1) = Some (bucket_node (length t)))
    by (rewrite Hkeep by lia; rewrite Hnew1; reflexivity).
  assert (H2 : t2 !! (length t + 2) = Some (deployment_node (length t)))
    by (rewrite Hkeep by lia; rewrite Hnew1; reflexivity).
  assert (H4 : t2 !! (length t + 4) = Some (stack_node id2 props2 (length t + 4)))
    by (rewrite (Hnew2' _ 0) by lia; reflexivity).
  assert (H5 : t2 !! (length t + 5) = Some (bucket_node (length t + 4)))
    by (rewrite (Hnew2' _ 1) by lia; reflexivity).
  assert (H6 : t2 !! (length t + 6) = Some (deployment_node (length t + 4)))
    by (rewrite (Hnew2' _ 2) by lia; reflexivity).
  split; [|split; [|split]].
  - unfold declares, children_of, class_at. rewrite H0, H1. cbn.
    split; [rewrite elem_of_cons; auto | reflexivity].
  - unfold declares, children_of, class_at. rewrite H4, H5. cbn.
    split; [|reflexivity].
    replace (length t + 5) with (length t + 4 + 1) by lia.
    rewrite elem_of_cons. auto.
  - unfold props_at. rewrite H2. reflexivity.
  - unfold props_at. rewrite H6. cbn.
    replace (length t + 4 + 1) with (length t + 5) by lia. reflexivity.
Qed.

(** X4.  A second stack under the id of the first: its [super] is rejected
    by the scope, which has a child of that id already.  The rejection is
    the outcome of the constructor, no other call is made, and the tree is
    left as the first run made it. *)
Theorem X4_same_id_twice
  (url : nat -> string) (t : Tree) scope id props1 props2 parent :
  t !! scope = Some parent ->
  has_child id parent = false ->
  exists t1,
    run (awscdk url) (CdkS3WebsiteStack scope id props1) t =
      Done (VConstruct (length t)) t1 /\
    run (awscdk url) (CdkS3WebsiteStack scope id props2) t1 =
      Raised External (msg_duplicate id) t1 /\
    calls (awscdk url) (CdkS3WebsiteStack scope id props2) t1 =
      [New Stack (VConstruct scope) id props2].
Proof.
  intros Hscope Hfresh.
  destruct (run_lookup url t scope id props1 parent Hscope Hfresh)
    as (t1 & Hrun1 & _ & Hs1 & _ & _).
  assert (Hdup : has_child id (addChild parent id (length t)) = true).
  { rewrite has_child_addChild, String.eqb_refl. apply orb_true_r. }
  exists t1. split; [exact Hrun1|]. split.
  - rewrite run_CdkS3WebsiteStack_cases, Hs1, Hdup. reflexivity.
  - unfold CdkS3WebsiteStack. cbn [calls awscdk]. unfold construct_new.
    rewrite Hs1, Hdup. reflexivity.
Qed.

(** A straight-line program that ends with an error ends at a call the
    library rejected, and that call is the last one it made. *)
Lemma StraightLine_rejected_last
  {St : Type} (lib : Op -> St -> Reply St) ks p :
  StraightLine ks p ->
  forall s o msg s',
    run lib p s = Raised o msg s' ->
    o = External /\
    exists op s0, last (calls lib p s) = Some op /\ lib op s0 = Reject msg s'.
Proof.
  induction 1 as [ v | op k ks _ IH ]; intros s o msg s' Hrun;
    cbn [run calls] in *.
  - discriminate Hrun.
  - destruct (lib op s) as [v s1 | m s1] eqn:E.
    + destruct (IH v s1 o msg s' Hrun) as (-> & op' & s0 & Hlast & Hrej).
      split; [reflexivity|]. exists op', s0. split; [|exact Hrej].
      rewrite last_cons, Hlast. reflexivity.
    + injection Hrun as <- <- <-. split; [reflexivity|].
      exists op, s. split; [reflexivity | exact E].
Qed.

Lemma CdkS3WebsiteStack_step3_StraightLine scope id props :
  StraightLine CdkS3WebsiteStack_calls (CdkS3WebsiteStack_step3 scope id props).
Proof.
  unfold CdkS3WebsiteStack_calls, CdkS3WebsiteStack_step3.
  repeat (apply (sl_Call (New _ _ _ _)) || apply (sl_Call (Get _ _)); intros ?).
  apply sl_Ret.
Qed.

(** X5.  Against any library, when the constructor returns, all five calls
    were answered, each from the state the one before left: the value it
    returns is the stack that [super] answered; the bucket is declared in
    that stack; the deployment is declared in that stack with the bucket the
    library answered as destination; the website URL is read from that
    bucket; the output is declared in that stack with the URL the library
    answered as value; and the state it ends in is the one the last call
    left. *)
Theorem X5_returns_this
  {St : Type} (lib : Op -> St -> Reply St) scope id props (s : St) v s' :
  run lib (CdkS3WebsiteStack scope id props) s = Done v s' ->
  exists s1 websiteBucket s2 deployment s3 url s4 output,
    lib (New Stack (VConstruct scope) id props) s = Answer v s1 /\
    lib (New Bucket v "SriSriWebsiteBucket" (Some websiteBucket_props)) s1 =
      Answer websiteBucket s2 /\
    lib (New BucketDeployment v "DeployWebsite"
           (Some (DeployWebsite_props websiteBucket))) s2 =
      Answer deployment s3 /\
    lib (Get websiteBucket "bucketWebsiteUrl") s3 = Answer url s4 /\
    lib (New CfnOutput v "WebsiteURL" (Some (WebsiteURL_props url))) s4 =
      Answer output s' /\
    calls lib (CdkS3WebsiteStack scope id props) s =
      CdkS3WebsiteStack_ops scope id props v websiteBucket url.
Proof.
  unfold CdkS3WebsiteStack, CdkS3WebsiteStack_ops. cbn [run calls].
  intros Hrun.
  destruct (lib _ s) as [this s1|? ?] eqn:E1; [|discriminate Hrun].
  destruct (lib _ s1) as [b s2|? ?] eqn:E2; [|discriminate Hrun].
  destruct (lib _ s2) as [d s3|? ?] eqn:E3; [|discriminate Hrun].
  destruct (lib _ s3) as [u s4|? ?] eqn:E4; [|discriminate Hrun].
  destruct (lib _ s4) as [o s5|? ?] eqn:E5; [|discriminate Hrun].
  injection Hrun as -> ->.
  exists s1, b, s2, d, s3, u, s4, o.
  split; [first [exact E1 | reflexivity]|].
  split; [first [exact E2 | reflexivity]|].
  split; [first [exact E3 | reflexivity]|].
  split; [first [exact E4 | reflexivity]|].
  split; [first [exact E5 | reflexivity] | reflexivity].
Qed.


(** X7.  The scope, the id and the props of the stack reach the library
    through [super] only: against any library, two runs whose [super] gets
    the same reply end in the same outcome and make the same calls after
    [super], whatever their inputs. *)
Theorem X7_inputs_through_super
  {St : Type} (lib : Op -> St -> Reply St)
  scope1 id1 props1 (s1 : St) scope2 id2 props2 (s2 : St) :
  lib (New Stack (VConstruct scope1) id1 props1) s1 =
  lib (New Stack (VConstruct scope2) id2 props2) s2 ->
  run lib (CdkS3WebsiteStack scope1 id1 props1) s1 =
  run lib (CdkS3WebsiteStack scope2 id2 props2) s2 /\
  tail (calls lib (CdkS3WebsiteStack scope1 id1 props1) s1) =
  tail (calls lib (CdkS3WebsiteStack scope2 id2 props2) s2).
Proof.
  intros E. unfold CdkS3WebsiteStack. cbn [run calls tail].
  rewrite E. split; reflexivity.
Qed.

(** X8.  The first listing of the walkthrough is straight-line, with the
    same five kinds of calls in the same order as the final listing.
    Against any library it raises no error of its own; when it ends with an
    error, that is the rejection of the last call it made; when it returns,
    it returns the stack that [super] answered, after its five calls. *)
Theorem X8_step3_straight_line
  {St : Type} (lib : Op -> St -> Reply St) scope id props (s : St) :
  StraightLine CdkS3WebsiteStack_calls (CdkS3WebsiteStack_step3 scope id props) /\
  (forall o msg s',
      run lib (CdkS3WebsiteStack_step3 scope id props) s = Raised o msg s' ->
      o = External /\
      exists op s0,
        last (calls lib (CdkS3WebsiteStack_step3 scope id props) s) = Some op /\
        lib op s0 = Reject msg s') /\
  (forall v s',
      run lib (CdkS3WebsiteStack_step3 scope id props) s = Done v s' ->
      exists s1 websiteBucket url,
        lib (New Stack (VConstruct scope) id props) s = Answer v s1 /\
        calls lib (CdkS3WebsiteStack_step3 scope id props) s =
          CdkS3WebsiteStack_step3_ops scope id props v websiteBucket url).
Proof.
  pose proof (CdkS3WebsiteStack_step3_StraightLine scope id props) as Hsl.
  split; [exact Hsl|]. split.
  - intros o msg s'. apply (StraightLine_rejected_last lib _ _ Hsl).
  - unfold CdkS3WebsiteStack_step3, CdkS3WebsiteStack_step3_ops.
    cbn [run calls]. intros v s' Hrun.
    destruct (lib _ s) as [this s1|? ?]; [|discriminate Hrun].
    destruct (lib _ s1) as [b s2|? ?]; [|discriminate Hrun].
    destruct (lib _ s2) as [d s3|? ?]; [|discriminate Hrun].
    destruct (lib _ s3) as [u s4|? ?]; [|discriminate Hrun].
    destruct (lib _ s4) as [o s5|? ?]; [|discriminate Hrun].
    injection Hrun as -> ->.
    exists s1, b, u. split; reflexivity.
Qed.

(** X9.  Against the model of the library, in every scope that takes the
    stack, the first listing of the walkthrough stops at its bucket: it
    makes two calls, [super] and the bucket, and ends with the rejection
    quoted in the walkthrough.  The tree has two new objects, the stack and
    the bucket that was refused; no deployment and no output was made, and
    the old objects other than the scope are as they were. *)
Theorem X9_step3_stops_at_bucket
  (url : nat -> string) (t : Tree) scope id props parent :
  t !! scope = Some parent ->
  has_child id parent = false ->
  exists t',
    run (awscdk url) (CdkS3WebsiteStack_step3 scope id props) t =
      Raised External msg_publicReadAccess t' /\
    calls (awscdk url) (CdkS3WebsiteStack_step3 scope id props) t =
      [ New Stack (VConstruct scope) id props;
        New Bucket (VConstruct (length t)) "WebsiteBucket"
          (Some WebsiteBucket_step3_props) ] /\
    length t' = length t + 2 /\
    children_of t' (length t) = [("WebsiteBucket", length t + 1)] /\
    class_at t' (length t) = Some Stack /\
    class_at t' (length t + 1) = Some Bucket /\
    (forall r, r < length t -> r <> scope -> t' !! r = t !! r).
Proof.
  intros Hscope Hfresh.
  pose proof (lookup_lt_Some _ _ _ Hscope) as Hlt.
  set (base := <[scope := addChild parent id (length t)]> t).
  assert (Hlen : length base = length t) by apply length_insert.
  set (stack0 := {| c_class := Stack; c_id := id; c_props := props;
                    c_children := []; c_policy := [] |}).
  set (bucket0 := {| c_class := Bucket; c_id := "WebsiteBucket";
                     c_props := Some WebsiteBucket_step3_props;
                     c_children := [];
                     c_policy := [grantPublicAccess (length t + 1)] |}).
  assert (Hsuper : awscdk url (New Stack (VConstruct scope) id props) t =
                   Answer (VConstruct (length t)) (base ++ [stack0])%list).
  { cbn [awscdk]. unfold construct_new. rewrite Hscope, Hfresh. reflexivity. }
  assert (Hbucket :
    awscdk url (New Bucket (VConstruct (length t)) "WebsiteBucket"
                  (Some WebsiteBucket_step3_props)) (base ++ [stack0])%list =
    Reject msg_publicReadAccess
      (base ++ [addChild stack0 "WebsiteBucket" (length t + 1); bucket0])%list).
  { cbn [awscdk]. unfold construct_new.
    rewrite lookup_app_r by lia. rewrite Hlen, Nat.sub_diag. cbn [lookup list_lookup].
    change (has_child "WebsiteBucket" stack0) with false. cbn match.
    rewrite length_app, Hlen. cbn [length].
    replace (<[length t := addChild stack0 "WebsiteBucket" (length t + 1)]>
               (base ++ [stack0]))%list
      with (base ++ [addChild stack0 "WebsiteBucket" (length t + 1)])%list.
    2:{ rewrite <- Hlen at 2. replace (length base) with (length base + 0) by lia.
        rewrite insert_app_r. reflexivity. }
    rewrite <- app_assoc. reflexivity. }
  exists (base ++ [addChild stack0 "WebsiteBucket" (length t + 1); bucket0])%list.
  split; [|split; [|split; [|split; [|split; [|split]]]]].
  - unfold CdkS3WebsiteStack_step3. cbn [run]. rewrite Hsuper.
    change (awscdk url (New Bucket (VConstruct (length t)) "WebsiteBucket" _) _)
      with (awscdk url (New Bucket (VConstruct (length t)) "WebsiteBucket"
                          (Some WebsiteBucket_step3_props)) (base ++ [stack0])%list).
    rewrite Hbucket. reflexivity.
  - unfold CdkS3WebsiteStack_step3. cbn [calls]. rewrite Hsuper.
    change (awscdk url (New Bucket (VConstruct (length t)) "WebsiteBucket" _) _)
      with (awscdk url (New Bucket (VConstruct (length t)) "WebsiteBucket"
                          (Some WebsiteBucket_step3_props)) (base ++ [stack0])%list).
    rewrite Hbucket. reflexivity.
  - rewrite length_app, Hlen. reflexivity.
  - unfold children_of. rewrite lookup_app_r by lia.
    rewrite Hlen, Nat.sub_diag. reflexivity.
  - unfold class_at. rewrite lookup_app_r by lia.
    rewrite Hlen, Nat.sub_diag. reflexivity.
  - unfold class_at. rewrite lookup_app_r by lia.
    rewrite Hlen. replace (length t + 1 - length t) with 1 by lia. reflexivity.
  - intros r Hr Hne. rewrite lookup_app_l by lia.
    apply list_lookup_insert_ne. congruence.
Qed.

(** ** The further properties on examples *)


Lemma X1_frame_witness :
  [root] !! 0 = Some root /\
  has_child "CdkS3WebsiteStack" root = false /\
  exists t' p',
    run (awscdk url_token) (CdkS3WebsiteStack 0 "CdkS3WebsiteStack" None) [root] =
      Done (VConstruct 1) t' /\
    t' !! 0 = Some p' /\
    c_children p' = [("CdkS3WebsiteStack", 1)].
Proof.
  split; [reflexivity|]. split; [reflexivity|].
  destruct (X1_frame url_token [root] 0 "CdkS3WebsiteStack" None root
              eq_refl eq_refl)
    as (t' & p' & Hrun & _ & _ & Hs & _ & _ & _ & _ & Hch).
  exists t', p'. split; [exact Hrun|]. split; [exact Hs | exact Hch].
Defined.


Lemma X3_two_stacks_witness :
  [root] !! 0 = Some root /\
  has_child "SiteA" root = false /\
  has_child "SiteB" root = false /\
  "SiteA" <> "SiteB" /\
  exists t1 t2,
    run (awscdk url_token) (CdkS3WebsiteStack 0 "SiteA" None) [root] =
      Done (VConstruct 1) t1 /\
    run (awscdk url_token) (CdkS3WebsiteStack 0 "SiteB" None) t1 =
      Done (VConstruct 5) t2 /\
    children_of t2 0 = [("SiteA", 1); ("SiteB", 5)] /\
    props_at t2 3 !! "destinationBucket" = Some (VConstruct 2) /\
    props_at t2 7 !! "destinationBucket" = Some (VConstruct 6).
Proof.
  assert (Hne : "SiteA" <> "SiteB") by discriminate.
  split; [reflexivity|]. split; [reflexivity|]. split; [reflexivity|].
  split; [exact Hne|].
  destruct (X3_two_stacks url_token [root] 0 "SiteA" None "SiteB" None root
              eq_refl eq_refl eq_refl Hne)
    as (t1 & t2 & Hrun1 & Hrun2 & Hch & _ & _ & _ & Hd1 & Hd2).
  exists t1, t2.
  split; [exact Hrun1|]. split; [exact Hrun2|]. split; [exact Hch|].
  split; [exact Hd1 | exact Hd2].
Defined.

Lemma X4_same_id_twice_witness :
  [root] !! 0 = Some root /\
  has_child "CdkS3WebsiteStack" root = false /\
  exists t1,
    run (awscdk url_token) (CdkS3WebsiteStack 0 "CdkS3WebsiteStack" None) [root] =
      Done (VConstruct 1) t1 /\
    run (awscdk url_token) (CdkS3WebsiteStack 0 "CdkS3WebsiteStack" None) t1 =
      Raised External (msg_duplicate "CdkS3WebsiteStack") t1.
Proof.
  split; [reflexivity|]. split; [reflexivity|].
  destruct (X4_same_id_twice url_token [root] 0 "CdkS3WebsiteStack" None None
              root eq_refl eq_refl)
    as (t1 & Hrun1 & Hrun2 & _).
  exists t1. split; [exact Hrun1 | exact Hrun2].
Defined.

Lemma X5_returns_this_witness :
  run (awscdk url_token) (CdkS3WebsiteStack 0 "CdkS3WebsiteStack" None) [root] =
    Done (VConstruct 1)
      ([addChild root "CdkS3WebsiteStack" 1] ++
       declared url_token "CdkS3WebsiteStack" None 1)%list /\
  exists s1 websiteBucket s2 deployment s3 url s4,
    awscdk url_token (New Stack (VConstruct 0) "CdkS3WebsiteStack" None) [root] =
      Answer (VConstruct 1) s1 /\
    awscdk url_token (New Bucket (VConstruct 1) "SriSriWebsiteBucket"
                        (Some websiteBucket_props)) s1 =
      Answer websiteBucket s2 /\
    awscdk url_token (New BucketDeployment (VConstruct 1) "DeployWebsite"
                        (Some (DeployWebsite_props websiteBucket))) s2 =
      Answer deployment s3 /\
    awscdk url_token (Get websiteBucket "bucketWebsiteUrl") s3 = Answer url s4 /\
    calls (awscdk url_token) (CdkS3WebsiteStack 0 "CdkS3WebsiteStack" None) [root] =
      CdkS3WebsiteStack_ops 0 "CdkS3WebsiteStack" None
        (VConstruct 1) websiteBucket url.
Proof.
  split; [exact run_root|].
  destruct (X5_returns_this (awscdk url_token) 0 "CdkS3WebsiteStack" None [root]
              _ _ run_root)
    as (s1 & b & s2 & d & s3 & u & s4 & o & E1 & E2 & E3 & E4 & _ & Hcalls).
  exists s1, b, s2, d, s3, u, s4.
  split; [exact E1|]. split; [exact E2|]. split; [exact E3|].
  split; [exact E4 | exact Hcalls].
Defined.


Lemma X7_inputs_through_super_witness :
  accepting (New Stack (VConstruct 0) "SiteA" None) tt =
  accepting (New Stack (VConstruct 1) "SiteB" (Some ∅)) tt /\
  run accepting (CdkS3WebsiteStack 0 "SiteA" None) tt =
  run accepting (CdkS3WebsiteStack 1 "SiteB" (Some ∅)) tt.
Proof.
  split; [reflexivity|].
  exact (proj1 (X7_inputs_through_super accepting 0 "SiteA" None tt
                  1 "SiteB" (Some ∅) tt eq_refl)).
Defined.

Lemma X8_step3_straight_line_witness :
  run accepting (CdkS3WebsiteStack_step3 0 "CdkS3WebsiteStack" None) tt =
    Done VUndefined tt /\
  exists s1 websiteBucket url,
    accepting (New Stack (VConstruct 0) "CdkS3WebsiteStack" None) tt =
      Answer VUndefined s1 /\
    calls accepting (CdkS3WebsiteStack_step3 0 "CdkS3WebsiteStack" None) tt =
      CdkS3WebsiteStack_step3_ops 0 "CdkS3WebsiteStack" None
        VUndefined websiteBucket url.
Proof.
  assert (H : run accepting (CdkS3WebsiteStack_step3 0 "CdkS3WebsiteStack" None) tt =
              Done VUndefined tt) by reflexivity.
  split; [exact H|].
  destruct (X8_step3_straight_line accepting 0 "CdkS3WebsiteStack" None tt)
    as (_ & _ & Hdone).
  exact (Hdone _ _ H).
Defined.

Lemma X9_step3_stops_at_bucket_witness :
  [root] !! 0 = Some root /\
  has_child "CdkS3WebsiteStack" root = false /\
  exists t',
    run (awscdk url_token) (CdkS3WebsiteStack_step3 0 "CdkS3WebsiteStack" None) [root] =
      Raised External msg_publicReadAccess t' /\
    length t' = 3 /\
    children_of t' 1 = [("WebsiteBucket", 2)].
Proof.
  split; [reflexivity|]. split; [reflexivity|].
  destruct (X9_step3_stops_at_bucket url_token [root] 0 "CdkS3WebsiteStack"
              None root eq_refl eq_refl)
    as (t' & Hrun & _ & Hlen & Hch & _).
  exists t'. split; [exact Hrun|]. split; [exact Hlen | exact Hch].
Defined.
